(** * qemu-eos test harness: QemuRunner (ml_qemu/run.py) and MenuTest (ml_tests/menu_test.py)

    A shallow embedding of the emulator supervisor and of the menu scenario,
    with the calls to the outside (subprocess, sockets, VNC client, sleep,
    the file system) written as an explicit state, a list of emitted events
    and Python exceptions. *)

From Stdlib Require Import QArith DecimalString DecimalNat Ascii String.
From stdpp Require Import gmap strings list.

Close Scope Q_scope.

(** ** Python built-ins used by the two files *)

Module Py.

(** The line feed of the [b"...\n"] and ["...\n"] literals. *)
Definition LF : string := String "010"%char EmptyString.

(** [str.isspace] on the code points below 256: the characters that
    [str.split()] without argument treats as separators. *)
Definition isspace (c : ascii) : bool :=
  let n := nat_of_ascii c in
  ((9 <=? n) && (n <=? 13)) || ((28 <=? n) && (n <=? 32))
  || (n =? 133) || (n =? 160).

(** [s.startswith(p)]. *)
Definition startswith (s p : string) : bool := String.prefix p s.

(** [s.split()]: the maximal runs of non-whitespace characters, in order.
    [cur] is the run being read; it is empty between two runs. *)
Fixpoint split_go (cur s : string) : list string :=
  match s with
  | EmptyString => match cur with EmptyString => [] | _ => [cur] end
  | String c s' =>
      if isspace c
      then match cur with
           | EmptyString => split_go EmptyString s'
           | _ => cur :: split_go EmptyString s'
           end
      else split_go (cur +:+ String c EmptyString) s'
  end.

Definition split (s : string) : list string := split_go EmptyString s.

(** [l[-1]]; [None] stands for the IndexError of an empty list. *)
Fixpoint index_last {A} (l : list A) : option A :=
  match l with
  | [] => None
  | [x] => Some x
  | _ :: l' => index_last l'
  end.

(** [str(n)] for a non-negative integer. *)
Definition str (n : nat) : string := NilEmpty.string_of_uint (Nat.to_uint n).

Fixpoint zeros (k : nat) : string :=
  match k with
  | O => EmptyString
  | S k' => String "0"%char (zeros k')
  end.

(** [s.zfill(width)]: zeros on the left up to [width] characters, after a
    leading sign when there is one. *)
Definition zfill (width : nat) (s : string) : string :=
  let fill := zeros (width - String.length s) in
  match s with
  | EmptyString => fill
  | String c rest =>
      if (Ascii.eqb c "+"%char || Ascii.eqb c "-"%char)%bool
      then String c (fill +:+ rest)
      else fill +:+ s
  end.

Fixpoint last_char (s : string) : option ascii :=
  match s with
  | EmptyString => None
  | String c EmptyString => Some c
  | String _ s' => last_char s'
  end.

Definition endswith_sep (s : string) : bool :=
  match last_char s with
  | Some c => Ascii.eqb c "/"%char
  | None => false
  end.

(** [os.path.join(a, *ps)] of posixpath. *)
Fixpoint path_join (a : string) (ps : list string) : string :=
  match ps with
  | [] => a
  | b :: ps' =>
      path_join
        (if startswith b "/" then b
         else if (String.eqb a EmptyString || endswith_sep a)%bool then a +:+ b
         else a +:+ "/" +:+ b)
        ps'
  end.

(** The exceptions that the modelled calls raise. *)
Inductive exn : Type :=
| FileNotFoundError
| TimeoutError
| ConnectionRefusedError
| AttributeError
| IndexError
| TypeError
| OtherError (name : string).

(** Binding the arguments of a call to the parameters of a function (those
    after [self]): positional arguments fill the parameters from the left;
    a keyword has to name a parameter that no positional argument has
    filled; each of the first [required] parameters, those without a
    default, has to be filled. *)
Definition binds (params : list string) (required positional : nat)
    (keywords : list string) : bool :=
  (positional <=? length params)
  && forallb (fun k => existsb (String.eqb k) (drop positional params)) keywords
  && forallb (fun p => existsb (String.eqb p) keywords)
       (drop positional (take required params)).

End Py.

Export Py (exn(..)).

(** ** Effects: events, the world outside the harness, a state and exception monad *)

(** The calls that leave the harness, in the order they are made.  [recv] and
    [close] belong to the socket interface although neither file calls them. *)
Inductive event : Type :=
| EvPrint (msg : string)
| EvPrintArgv (argv : list string)
| EvVncConnect (display : string)
| EvPopen (pid : nat) (argv : list string)
| EvTerminate (pid : nat)
| EvSleep (seconds : Q)
| EvSocket (fd : nat)
| EvSockConnect (fd : nat) (path : string)
| EvSockSend (fd : nat) (data : string)
| EvSockRecv (fd : nat)
| EvSockClose (fd : nat)
| EvKeyPress (key : string)
| EvCaptureScreen (name : string)
| EvExpectScreen (path : string) (maxrms : Q)
| EvScreenSave (name : string).

(** What the harness can observe and change outside itself: the paths that
    exist, [os.environ], and the next free process and socket handles. *)
Record world : Type := mkWorld {
  fs : gset string;
  environ : gmap string string;
  next_pid : nat;
  next_fd : nat
}.

(** What the harness does not decide: whether the emulator can be launched,
    whether it has bound its monitor socket and accepts connections on it,
    and what the screen comparison against an existing reference raises
    ([None]: the screen matched). *)
Record Env : Type := mkEnv {
  popen_error : option exn;
  monitor_bound : bool;
  monitor_accepts : bool;
  expect_error : string -> option exn
}.

Inductive res (A : Type) : Type :=
| Ok (a : A)
| Raise (e : exn).
Arguments Ok {A} a.
Arguments Raise {A} e.

Definition M (S A : Type) : Type := S -> res A * S * list event.

Definition ret {S A} (a : A) : M S A := fun s => (Ok a, s, []).

Definition bind {S A B} (m : M S A) (k : A -> M S B) : M S B :=
  fun s =>
    match m s with
    | (Ok a, s1, ev1) =>
        match k a s1 with
        | (r, s2, ev2) => (r, s2, ev1 ++ ev2)
        end
    | (Raise e, s1, ev1) => (Raise e, s1, ev1)
    end.

Definition raise {S A} (e : exn) : M S A := fun s => (Raise e, s, []).
Definition emit {S} (ev : event) : M S unit := fun s => (Ok tt, s, [ev]).
Definition gets {S A} (f : S -> A) : M S A := fun s => (Ok (f s), s, []).
Definition modify {S} (f : S -> S) : M S unit := fun s => (Ok tt, f s, []).

Declare Scope py_scope.
Delimit Scope py_scope with py.
Notation "x <- m ;; k" := (bind m (fun x => k))
  (at level 100, m at next level, right associativity) : py_scope.
Notation "m ;; k" := (bind m (fun _ => k))
  (at level 100, right associativity) : py_scope.
Open Scope py_scope.

(** A call [f(a1, ..., an, k1=..., ..., km=...)]: when the arguments do not
    bind to the parameters of [f], the call raises TypeError and the body
    of [f] does not run. *)
Definition call {S A} (params : list string) (required positional : nat)
    (keywords : list string) (f : M S A) : M S A :=
  if Py.binds params required positional keywords then f else raise TypeError.

(** [try: m  except E: h]: [handler e] is the except clause that matches [e],
    if any; it runs in the state the raise left behind. *)
Definition try_except {S A} (m : M S A) (handler : exn -> option (M S A)) : M S A :=
  fun s =>
    match m s with
    | (Ok a, s1, ev1) => (Ok a, s1, ev1)
    | (Raise e, s1, ev1) =>
        match handler e with
        | Some h =>
            match h s1 with
            | (r, s2, ev2) => (r, s2, ev1 ++ ev2)
            end
        | None => (Raise e, s1, ev1)
        end
    end.

(** [with mgr: body].  [enter] failing skips both body and exit.  Otherwise
    [exit] always runs after the body.  An exception of [exit] replaces the
    body's result; [exit] returning stands for [__exit__] returning [None],
    which is false, so an exception of the body is raised again. *)
Definition with_ctx {S A} (enter : M S unit) (exit : M S unit) (body : M S A) : M S A :=
  fun s =>
    match enter s with
    | (Raise e, s1, ev1) => (Raise e, s1, ev1)
    | (Ok _, s1, ev1) =>
        match body s1 with
        | (r, s2, ev2) =>
            match exit s2 with
            | (Raise e', s3, ev3) => (Raise e', s3, ev1 ++ ev2 ++ ev3)
            | (Ok _, s3, ev3) => (r, s3, ev1 ++ ev2 ++ ev3)
            end
        end
    end.

(** ** The calls to the operating system and to the libraries *)

Module Sys.
Section WithEnv.
Variable env : Env.

Definition set_fs (f : gset string -> gset string) (w : world) : world :=
  {| fs := f (fs w); environ := environ w; next_pid := next_pid w; next_fd := next_fd w |}.

(** [time.sleep(t)]. *)
Definition sleep {S} (t : Q) : M S unit := emit (EvSleep t).

(** [print(...)] and [locking_print(..., lock)]. *)
Definition print {S} (msg : string) : M S unit := emit (EvPrint msg).

(** [os.environ[k] = v]. *)
Definition setenv (k v : string) : M world unit :=
  modify (fun w => {| fs := fs w; environ := <[k := v]> (environ w);
                      next_pid := next_pid w; next_fd := next_fd w |}).

(** [os.remove(p)]. *)
Definition os_remove (p : string) : M world unit :=
  fun w =>
    if bool_decide (p ∈ fs w)
    then (Ok tt, set_fs (fun f => f ∖ {[ p ]}) w, [])
    else (Raise FileNotFoundError, w, []).

(** [subprocess.Popen(argv, env=os.environ, ...)]: the handle of the child. *)
Definition Popen (argv : list string) : M world nat :=
  fun w =>
    match popen_error env with
    | Some e => (Raise e, w, [])
    | None =>
        (Ok (next_pid w),
         {| fs := fs w; environ := environ w;
            next_pid := S (next_pid w); next_fd := next_fd w |},
         [EvPopen (next_pid w) argv])
    end.

(** The emulator's side of the launch: it binds the monitor socket named by
    its [-chardev socket,server,nowait,path=...] argument, or fails to. *)
Definition emulator_binds (monitor : string) : M world unit :=
  modify (set_fs (fun f => if monitor_bound env then {[ monitor ]} ∪ f else f)).

(** [Popen.terminate()]. *)
Definition terminate (pid : nat) : M world unit := emit (EvTerminate pid).

(** [socket.socket(AF_UNIX, SOCK_STREAM)]. *)
Definition socket : M world nat :=
  fun w =>
    (Ok (next_fd w),
     {| fs := fs w; environ := environ w;
        next_pid := next_pid w; next_fd := S (next_fd w) |},
     [EvSocket (next_fd w)]).

(** [s.connect(path)] on a Unix socket: ENOENT when nothing is at [path],
    ECONNREFUSED when nobody listens there. *)
Definition connect (fd : nat) (path : string) : M world unit :=
  emit (EvSockConnect fd path) ;;
  present <- gets (fun w => bool_decide (path ∈ fs w)) ;;
  if present : bool
  then if monitor_accepts env then ret tt else raise ConnectionRefusedError
  else raise FileNotFoundError.

(** [s.send(data)]. *)
Definition send (fd : nat) (data : string) : M world unit :=
  emit (EvSockSend fd data).

(** [vnc_client.keyPress(key)]. *)
Definition keyPress (key : string) : M world unit := emit (EvKeyPress key).

(** [vnc_client.captureScreen(name)]: the frame is written under [name]. *)
Definition captureScreen (name : string) : M world unit :=
  emit (EvCaptureScreen name) ;;
  modify (set_fs (fun f => {[ name ]} ∪ f)).

(** [vnc_client.expectScreen(path, maxrms)]: opening the reference raises
    FileNotFoundError when it is missing; waiting for a matching frame
    raises what the environment says, TimeoutError when none arrives. *)
Definition expectScreen (path : string) (maxrms : Q) : M world unit :=
  emit (EvExpectScreen path maxrms) ;;
  present <- gets (fun w => bool_decide (path ∈ fs w)) ;;
  if present : bool
  then match expect_error env path with
       | Some e => raise e
       | None => ret tt
       end
  else raise FileNotFoundError.

(** [vnc_client.screen.save(name)]. *)
Definition screen_save (name : string) : M world unit :=
  emit (EvScreenSave name) ;;
  modify (set_fs (fun f => {[ name ]} ∪ f)).

End WithEnv.
End Sys.

(** ** ml_qemu/run.py: class QemuRunner *)

Module QemuRunner.

(** The VNC client object; [full_frames] records that its
    framebufferUpdateRequest has been replaced by the wrapper that forces
    [incremental=0]. *)
Record vnc : Type := mkVnc {
  server : string;
  full_frames : bool
}.

(** The attributes of a QemuRunner.  [qemu_process] does not exist before
    [__enter__] has run. *)
Record t : Type := mk {
  rom_dir : string;
  screen_cap_prefix : string;
  screen_cap_counter : nat;
  monitor_socket_path : string;
  qemu_command : list string;
  vnc_display : string;
  vnc_client : option vnc;
  qemu_process : option nat
}.

(** The runner object together with the world it acts on. *)
Record state : Type := mkState {
  outside : world;
  self : t
}.

Definition lift {A} (m : M world A) : M state A :=
  fun s =>
    match m (outside s) with
    | (r, w', evs) => (r, {| outside := w'; self := self s |}, evs)
    end.

Definition update (f : t -> t) : M state unit :=
  modify (fun s => {| outside := outside s; self := f (self s) |}).

Definition set_qemu_process (p : option nat) (q : t) : t :=
  mk (rom_dir q) (screen_cap_prefix q) (screen_cap_counter q)
     (monitor_socket_path q) (qemu_command q) (vnc_display q) (vnc_client q) p.

Definition set_screen_cap_counter (n : nat) (q : t) : t :=
  mk (rom_dir q) (screen_cap_prefix q) n
     (monitor_socket_path q) (qemu_command q) (vnc_display q) (vnc_client q)
     (qemu_process q).

Definition set_screen_cap_prefix (p : string) (q : t) : t :=
  mk (rom_dir q) p (screen_cap_counter q)
     (monitor_socket_path q) (qemu_command q) (vnc_display q) (vnc_client q)
     (qemu_process q).

Definition set_vnc_client (c : option vnc) (q : t) : t :=
  mk (rom_dir q) (screen_cap_prefix q) (screen_cap_counter q)
     (monitor_socket_path q) (qemu_command q) (vnc_display q) c
     (qemu_process q).

(** Truth value of a string: it is not empty. *)
Definition truthy (s : string) : bool := negb (String.eqb s EmptyString).

(** The file name that capture number [n] is written under:
    [prefix + str(n).zfill(2) + ".png"]. *)
Definition capture_name (prefix : string) (n : nat) : string :=
  prefix +:+ Py.zfill 2 (Py.str n) +:+ ".png".

Section Methods.
Variable env : Env.

(** The attributes that [__init__] assigns.  The client is the object that
    [vncdotool.api.connect] returns. *)
Definition attributes (build_dir rom_dir cam monitor_socket_path vnc_display : string)
    (boot : bool) : t :=
  let monitor :=
    if truthy monitor_socket_path then monitor_socket_path else "qemu.monitor" in
  let model :=
    if boot then cam +:+ ",firmware=boot=1" else cam +:+ ",firmware=boot=0" in
  let command :=
    [ Py.path_join build_dir ["arm-softmmu"; "qemu-system-arm"];
      "-drive"; "if=sd,format=raw,file=" +:+ Py.path_join build_dir ["disk_images"; "sd.img"];
      "-drive"; "if=ide,format=raw,file=" +:+ Py.path_join build_dir ["disk_images"; "cf.img"];
      "-chardev"; "socket,server,nowait,path=" +:+ monitor +:+ ",id=monsock";
      "-mon"; "chardev=monsock,mode=readline";
      "-name"; cam;
      "-M"; model ] in
  if truthy vnc_display
  then mk rom_dir "test_" 0 monitor (command ++ ["-vnc"; vnc_display]) vnc_display
          (Some (mkVnc vnc_display false)) None
  else mk rom_dir "test_" 0 monitor command vnc_display None None.

(** [QemuRunner.__init__]: the only call it makes is
    [vncdotool.api.connect], when a display is given. *)
Definition __init__ (build_dir rom_dir cam monitor_socket_path vnc_display : string)
    (boot : bool) : M world t :=
  (if truthy vnc_display then emit (EvVncConnect vnc_display) else ret tt) ;;
  ret (attributes build_dir rom_dir cam monitor_socket_path vnc_display boot).

(** [QemuRunner.__enter__]. *)
Definition __enter__ : M state unit :=
  q <- gets self ;;
  lift (Sys.setenv "QEMU_EOS_WORKDIR" (rom_dir q)) ;;
  emit (EvPrintArgv (qemu_command q)) ;;
  pid <- lift (Sys.Popen env (qemu_command q)) ;;
  update (set_qemu_process (Some pid)) ;;
  lift (Sys.emulator_binds env (monitor_socket_path q)) ;;
  Sys.sleep 1.5%Q.

(** [QemuRunner.__exit__]. *)
Definition __exit__ : M state unit :=
  q <- gets self ;;
  match qemu_process q with
  | Some pid => lift (Sys.terminate pid)
  | None => raise AttributeError
  end ;;
  try_except
    (lift (Sys.os_remove (monitor_socket_path q)))
    (fun e => match e with
              | FileNotFoundError => Some (ret tt)
              | _ => None
              end).

(** [QemuRunner.shutdown]. *)
Definition shutdown (force : bool) : M state unit :=
  q <- gets self ;;
  s <- lift Sys.socket ;;
  lift (Sys.connect env s (monitor_socket_path q)) ;;
  (if force
   then lift (Sys.send s ("quit" +:+ Py.LF))
   else lift (Sys.send s ("system_powerdown" +:+ Py.LF))) ;;
  Sys.sleep 2%Q.

(** The VNC client of the runner; using it when [vnc_client] is [None]
    raises AttributeError. *)
Definition the_vnc_client : M state vnc :=
  q <- gets self ;;
  match vnc_client q with
  | Some c => ret c
  | None => raise AttributeError
  end.

(** [QemuRunner.capture_screen]. *)
Definition capture_screen : M state unit :=
  Sys.sleep 0.1%Q ;;
  n <- gets (fun s => screen_cap_counter (self s)) ;;
  update (set_screen_cap_counter (n + 1)) ;;
  _ <- the_vnc_client ;;
  q <- gets self ;;
  lift (Sys.captureScreen (capture_name (screen_cap_prefix q) n)) ;;
  Sys.sleep 0.1%Q.

(** [QemuRunner.key_press] as run.py has it. *)
Definition key_press (key : string) (capture : bool) : M state unit :=
  _ <- the_vnc_client ;;
  lift (Sys.keyPress key) ;;
  if capture then capture_screen else ret tt.

(** The parameters of [__init__] and of [key_press] after [self]; the first
    three of [__init__] and the first of [key_press] have no default. *)
Definition init_params : list string :=
  ["build_dir"; "rom_dir"; "cam"; "monitor_socket_path"; "vnc_display"; "boot"].

Definition key_press_params : list string := ["key"; "capture_screen"].

(** Reading [q.screen_cap_name].  [__init__] assigns [rom_dir],
    [screen_cap_prefix], [screen_cap_counter], [monitor_socket_path],
    [qemu_command], [vnc_display] and [vnc_client], [__enter__] assigns
    [qemu_process], and the class defines the five methods; nothing
    defines [screen_cap_name], so reading it raises AttributeError. *)
Definition screen_cap_name : M state string := raise AttributeError.

End Methods.
End QemuRunner.

(** ** ml_tests/menu_test.py: class MenuTest *)

Module MenuTest.

(** Modelled from the spec: the result of a test, built by [return_success]
    and [return_failure] of the base class [test.Test], which is not part of
    the two files: success, or failure with a reason string. *)
Inductive TestOutcome : Type :=
| Succeeded
| Failed (reason : string).

Definition return_success : TestOutcome := Succeeded.
Definition return_failure (reason : string) : TestOutcome := Failed reason.

(** The camera description [self.cam]. *)
Record Cam : Type := mkCam {
  model : string;
  code_rom_md5 : string;
  rom_dir : string;
  source_dir : string;
  unreliable_screencaps : bool
}.

(** The attributes of the test object that [run] reads.  [known_cams] maps a
    model to the ROM checksums known for it. *)
Record t : Type := mk {
  verbose : bool;
  cam : Cam;
  known_cams : gmap string (gset string);
  qemu_dir : string;
  output_dir : string;
  sd_file : string;
  cf_file : string;
  qemu_monitor_path : string;
  vnc_display : string;
  expected_output_dir : string;
  force_continue : bool
}.

(** The class attribute [qemu_key_sequences]: ROM checksum to key sequence. *)
Definition qemu_key_sequences : gmap string (list string) :=
  list_to_map [
    (* 5D3 ROM1 *)
    ("e6a90e8497c2c1187e0322010a42b9b5",
     [ "m"; "l"; "l"; "m"; "left"; "left"; "left"; "left"; "left"; "left";
       "left"; "left"; "left"; "left"; "left"; "left"; "left"; "left";
       "left"; "left"; "left"; "left"; "left"; "left"; "left"; "up"; "up";
       "space"; "down"; "space"; "right"; "right"; "right"; "up"; "space";
       "pgdn"; "space" ]);
    (* 50D ROM1 *)
    ("424545a5cfe10b1a5d8cefffe9fe5297",
     [ "m"; "l"; "l"; "m"; "right"; "right"; "right"; "right"; "right";
       "right"; "right"; "right"; "right"; "up"; "up"; "space"; "down";
       "space"; "right"; "up"; "up"; "space"; "pgdn"; "space" ]);
    (* 60D ROM1 *)
    ("d266ce304585952fb3a05a9f6c304f2f",
     [ "m"; "l"; "l"; "m"; "left"; "left"; "left"; "left"; "left"; "left";
       "left"; "left"; "left"; "left"; "left"; "up"; "up"; "space"; "down";
       "space"; "left"; "up"; "up"; "space"; "pgup"; "space" ]);
    (* 100D ROM1 *)
    ("e06a0e3919ac4d4ef609a864e937a5d3",
     [ "m"; "wait l"; "wait l"; "m"; "right"; "right"; "right"; "right";
       "right"; "right"; "right"; "right"; "right"; "right"; "right"; "up";
       "up"; "up"; "space"; "down"; "space" ]);
    (* 700D ROM1 *)
    ("f6c20df071b3514fa65f35dc5d71b484",
     [ "f1"; "m"; "right"; "right"; "right"; "right"; "right"; "right";
       "right"; "right"; "right"; "right"; "right"; "right"; "space";
       "right"; "space"; "left"; "space"; "down"; "down"; "up"; "space" ]);
    (* 500D ROM1 *)
    ("0a9fce1e4ef6d2ac2c3bc63eb96d3c34",
     [ "f1"; "m"; "l"; "l"; "m"; "left"; "left"; "left"; "left"; "left";
       "left"; "left"; "left"; "right"; "space"; "right"; "space"; "right";
       "space"; "up"; "up"; "down"; "space" ])  ].

(** Lines 124 to 130 of [run]: the delay after the key press and the key to
    press for the step [k].  [None] stands for the IndexError of [[-1]] on
    an empty list. *)
Definition step_delay_key (k : string) : option (Q * string) :=
  if Py.startswith k "wait"
  then match Py.index_last (Py.split k) with
       | Some key => Some (5%Q, key)
       | None => None
       end
  else Some (0.3%Q, k).

Definition scoped {A} (q : QemuRunner.t) (m : M QemuRunner.state A) : M world A :=
  fun w =>
    match m (QemuRunner.mkState w q) with
    | (r, s, evs) => (r, QemuRunner.outside s, evs)
    end.

Section Run.
Variable env : Env.
Variable test : t.

(** The constructor call of lines 95 to 103: four positional arguments,
    which fill [build_dir], [rom_dir], [cam] and [monitor_socket_path], and
    eight keywords.  [__init__] of run.py has no parameter
    [unreliable_screencaps], [sd_file], [cf_file], [stdout], [stderr] or
    [verbose], and [monitor_socket_path] is filled twice: the arguments do
    not bind and the call raises TypeError. *)
Definition new_runner : M world QemuRunner.t :=
  call QemuRunner.init_params 3 4
    [ "unreliable_screencaps"; "sd_file"; "cf_file"; "stdout"; "stderr";
      "monitor_socket_path"; "vnc_display"; "verbose" ]
    (QemuRunner.__init__ (qemu_dir test) (rom_dir (cam test)) (source_dir (cam test))
       (model (cam test)) (vnc_display test) false).

(** The except clauses around [expectScreen], lines 136 to 155. *)
Definition on_expect_error (expected_output_path : string) (e : exn)
    : option (M QemuRunner.state (option TestOutcome)) :=
  match e with
  | FileNotFoundError =>
      Some (if force_continue test
            then ret None
            else ret (Some (return_failure
                   ("Missing expected output file: " +:+ expected_output_path))))
  | TimeoutError =>
      Some (name <- QemuRunner.screen_cap_name ;;
            let fail_name := "fail_" +:+ name in
            _ <- QemuRunner.the_vnc_client ;;
            QemuRunner.lift (Sys.screen_save fail_name) ;;
            if force_continue test
            then ret None
            else ret (Some (return_failure
                   ("Qemu screen never matched against expected result file '"
                    +:+ expected_output_path +:+ "'" +:+ Py.LF +:+ ", check '"
                    +:+ fail_name +:+ "'"))))
  | _ => None
  end.

(** One iteration of [for k in key_sequence], lines 124 to 155.  [Some o]
    is [return o] from inside the loop, [None] goes on to the next key.
    Line 131 calls [key_press] with one positional argument and the keyword
    [delay]. *)
Definition loop_body (k : string) : M QemuRunner.state (option TestOutcome) :=
  match step_delay_key k with
  | None => raise IndexError
  | Some (delay, key) =>
      call QemuRunner.key_press_params 1 1 ["delay"] (QemuRunner.key_press key true) ;;
      name <- QemuRunner.screen_cap_name ;;
      let expected_output_path := Py.path_join (expected_output_dir test) [name] in
      try_except
        (_ <- QemuRunner.the_vnc_client ;;
         QemuRunner.lift (Sys.expectScreen env expected_output_path 0.0%Q) ;;
         ret None)
        (on_expect_error expected_output_path)
  end.

Fixpoint for_loop (key_sequence : list string) : M QemuRunner.state (option TestOutcome) :=
  match key_sequence with
  | [] => ret None
  | k :: rest =>
      r <- loop_body k ;;
      match r with
      | Some o => ret (Some o)
      | None => for_loop rest
      end
  end.

(** Lines 104 to 122: the framebufferUpdateRequest of the client's protocol
    is replaced by the wrapper that forces full frames, and the capture
    prefix is set. *)
Definition prologue : M QemuRunner.state unit :=
  c <- QemuRunner.the_vnc_client ;;
  QemuRunner.update
    (QemuRunner.set_vnc_client (Some (QemuRunner.mkVnc (QemuRunner.server c) true))) ;;
  QemuRunner.update (QemuRunner.set_screen_cap_prefix "menu_test_").

(** The body of the [with] statement, lines 104 to 158. *)
Definition body (key_sequence : list string) : M QemuRunner.state (option TestOutcome) :=
  prologue ;;
  r <- for_loop key_sequence ;;
  match r with
  | Some o => ret (Some o)
  | None => QemuRunner.shutdown env false ;; ret None
  end.

(** The [with QemuRunner(...) as self.qemu_runner:] statement. *)
Definition scenario (key_sequence : list string) : M QemuRunner.state (option TestOutcome) :=
  with_ctx (QemuRunner.__enter__ env) QemuRunner.__exit__ (body key_sequence).

(** [MenuTest.run]. *)
Definition run : M world TestOutcome :=
  let c := cam test in
  (if verbose test
   then Sys.print ("MenuTest starting on " +:+ model c +:+ " " +:+ code_rom_md5 c)
   else ret tt) ;;
  match known_cams test !! model c with
  | None => ret (return_failure ("No tests known for cam: " +:+ model c))
  | Some roms =>
      if bool_decide (code_rom_md5 c ∈ roms)
      then
        match qemu_key_sequences !! code_rom_md5 c with
        | None =>
            ret (return_failure
                   ("Unknown rom for MenuTest, MD5 sum: " +:+ code_rom_md5 c))
        | Some key_sequence =>
            q <- new_runner ;;
            r <- scoped q (scenario key_sequence) ;;
            match r with
            | Some o => ret o
            | None => ret return_success
            end
        end
      else ret (return_failure ("Unknown rom for cam, MD5 sum: " +:+ code_rom_md5 c))
  end.

End Run.
End MenuTest.


(** ** Observations on the events of a run *)

Definition result_of {S A} (x : res A * S * list event) : res A := fst (fst x).
Definition state_of {S A} (x : res A * S * list event) : S := snd (fst x).
Definition events_of {S A} (x : res A * S * list event) : list event := snd x.


(** The file names passed to [screen.save], in order. *)
Definition saves (evs : list event) : list string :=
  omap (fun ev => match ev with EvScreenSave n => Some n | _ => None end) evs.


(** The sockets created, in order. *)
Definition sockets (evs : list event) : list nat :=
  omap (fun ev => match ev with EvSocket fd => Some fd | _ => None end) evs.

(** The events that start a process or open a channel. *)
Definition acquires (ev : event) : bool :=
  match ev with
  | EvPopen _ _ | EvSocket _ | EvSockConnect _ _ | EvVncConnect _ => true
  | _ => false
  end.

(** ** States and paths that the statements below refer to *)




(** What [run] prints before it checks the configuration. *)
Definition greeting (test : MenuTest.t) : list event :=
  if MenuTest.verbose test
  then [EvPrint ("MenuTest starting on " +:+ MenuTest.model (MenuTest.cam test)
                 +:+ " " +:+ MenuTest.code_rom_md5 (MenuTest.cam test))]
  else [].

(** The three ways in which [run] finds no scenario for the camera. *)
Definition unknown_configuration (test : MenuTest.t) : Prop :=
  let c := MenuTest.cam test in
  MenuTest.known_cams test !! MenuTest.model c = None
  ∨ (∃ roms, MenuTest.known_cams test !! MenuTest.model c = Some roms
             ∧ MenuTest.code_rom_md5 c ∉ roms)
  ∨ MenuTest.qemu_key_sequences !! MenuTest.code_rom_md5 c = None.

(** The spec's words for the key of an extended-wait step: [t] is the final
    whitespace-separated token of [k]. *)
Definition all_space (s : string) : Prop :=
  Forall (fun c => Py.isspace c = true) (list_ascii_of_string s).
Definition no_space (s : string) : Prop :=
  Forall (fun c => Py.isspace c = false) (list_ascii_of_string s).
Definition final_token (k t : string) : Prop :=
  t ≠ EmptyString ∧ no_space t ∧
  ∃ pre post, k = pre +:+ t +:+ post ∧ all_space post ∧
    (pre = EmptyString ∨ ∃ c, Py.last_char pre = Some c ∧ Py.isspace c = true).

(** A runner for [test] made with the parameters that [__init__] of run.py
    has: the build directory, the ROM directory and the model of the camera,
    the monitor path and the display of the test, [boot] left at its
    default.  [run] itself obtains no runner: see [MenuTest.new_runner]. *)
Definition fresh_runner (test : MenuTest.t) : QemuRunner.t :=
  QemuRunner.attributes (MenuTest.qemu_dir test) (MenuTest.rom_dir (MenuTest.cam test))
    (MenuTest.model (MenuTest.cam test)) (MenuTest.qemu_monitor_path test)
    (MenuTest.vnc_display test) false.

(** The state that a successful [__enter__] leaves. *)
Definition entered (env : Env) (s : QemuRunner.state) : QemuRunner.state :=
  let w := QemuRunner.outside s in
  let q := QemuRunner.self s in
  QemuRunner.mkState
    (mkWorld
       (if monitor_bound env then {[ QemuRunner.monitor_socket_path q ]} ∪ fs w else fs w)
       (<["QEMU_EOS_WORKDIR" := QemuRunner.rom_dir q]> (environ w))
       (S (next_pid w)) (next_fd w))
    (QemuRunner.set_qemu_process (Some (next_pid w)) q).

Definition enter_events (s : QemuRunner.state) : list event :=
  [ EvPrintArgv (QemuRunner.qemu_command (QemuRunner.self s));
    EvPopen (next_pid (QemuRunner.outside s)) (QemuRunner.qemu_command (QemuRunner.self s));
    EvSleep 1.5%Q ].

(** The state that [__exit__] leaves: nothing is at the monitor path. *)
Definition exited (s : QemuRunner.state) : QemuRunner.state :=
  let p := QemuRunner.monitor_socket_path (QemuRunner.self s) in
  if bool_decide (p ∈ fs (QemuRunner.outside s))
  then QemuRunner.mkState (Sys.set_fs (fun f => f ∖ {[ p ]}) (QemuRunner.outside s))
         (QemuRunner.self s)
  else s.

(** The state after [socket.socket()]: one more handle is in use. *)
Definition socket_opened (s : QemuRunner.state) : QemuRunner.state :=
  let w := QemuRunner.outside s in
  QemuRunner.mkState (mkWorld (fs w) (environ w) (next_pid w) (S (next_fd w)))
    (QemuRunner.self s).

(** The command that [shutdown] writes. *)
Definition monitor_command (force : bool) : string :=
  if force then "quit" +:+ Py.LF else "system_powerdown" +:+ Py.LF.

(** The processes started, in order. *)
Definition launched (evs : list event) : list nat :=
  omap (fun ev => match ev with EvPopen pid _ => Some pid | _ => None end) evs.




(** The spec's words for a capture number: two decimal digits, zero padded. *)
Definition digit_char (d : nat) : ascii := ascii_of_nat (48 + d).
Definition two_digits (n : nat) : string :=
  String (digit_char (n / 10)) (String (digit_char (n mod 10)) EmptyString).

(** Reading a decimal string back; leading zeros do not count. *)
Definition parse_nat (s : string) : nat :=
  match NilEmpty.uint_of_string s with
  | Some d => Nat.of_uint d
  | None => 0
  end.

(** The spec's description of one management command: connect, write the
    command, close, and only then wait. *)
Definition closes_before_waiting (env : Env) (force : bool) (s : QemuRunner.state) : Prop :=
  let fd := next_fd (QemuRunner.outside s) in
  events_of (QemuRunner.shutdown env force s)
  = [ EvSocket fd;
      EvSockConnect fd (QemuRunner.monitor_socket_path (QemuRunner.self s));
      EvSockSend fd (monitor_command force);
      EvSockClose fd;
      EvSleep 2%Q ].

(** ** Concrete runs *)

Module Examples.

Definition md5_100D : string := "e06a0e3919ac4d4ef609a864e937a5d3".

Definition cam_100D : MenuTest.Cam :=
  MenuTest.mkCam "100D" md5_100D "roms/100D" "platform/100D" false.

Definition registry : gmap string (gset string) := {[ "100D" := {[ md5_100D ]} ]}.

(** A test of the 100D ROM with its references under [expected]. *)
Definition test_100D (force_continue : bool) : MenuTest.t :=
  MenuTest.mk false cam_100D registry "build" "out" "sd.img" "cf.img"
    "qemu.monitor" ":12" "expected" force_continue.

(** The same test without a VNC display: the runner has no client. *)
Definition test_no_display : MenuTest.t :=
  MenuTest.mk false cam_100D registry "build" "out" "sd.img" "cf.img"
    "qemu.monitor" EmptyString "expected" false.

(** A camera that the registry does not know. *)
Definition test_unknown : MenuTest.t :=
  MenuTest.mk true (MenuTest.mkCam "5D2" md5_100D "roms/5D2" "platform/5D2" false)
    registry "build" "out" "sd.img" "cf.img" "qemu.monitor" ":12" "expected" false.

(** The reference images of the 21 steps of the 100D sequence. *)
Definition references : gset string :=
  list_to_set
    (map (fun n => "expected/" +:+ QemuRunner.capture_name "menu_test_" n) (seq 0 21)).

Definition world_refs : world := mkWorld references ∅ 100 3.

(** The reference of the third step is missing. *)
Definition world_gap : world :=
  mkWorld (references ∖ {[ "expected/menu_test_02.png" ]}) ∅ 100 3.

(** Every screen matches; the emulator serves its monitor socket. *)
Definition env_match : Env := mkEnv None true true (fun _ => None).


(** A runner inside its context, with and without the socket file. *)
Definition runner_entered : QemuRunner.t :=
  QemuRunner.set_qemu_process (Some 100) (fresh_runner (test_100D false)).

Definition state_bound : QemuRunner.state :=
  QemuRunner.mkState (mkWorld {[ "qemu.monitor" ]} ∅ 101 3) runner_entered.

Definition state_unbound : QemuRunner.state :=
  QemuRunner.mkState (mkWorld ∅ ∅ 101 3) runner_entered.





(** The key sequence of the 100D ROM. *)
Definition keys_100D : list string :=
  [ "m"; "wait l"; "wait l"; "m"; "right"; "right"; "right"; "right";
    "right"; "right"; "right"; "right"; "right"; "right"; "right"; "up";
    "up"; "up"; "space"; "down"; "space" ].


End Examples.

(** * Properties *)

(** *** Strings *)

Lemma append_cons c (s t : string) : String c s +:+ t = String c (s +:+ t).
Proof. reflexivity. Qed.

Lemma append_nil_l (s : string) : EmptyString +:+ s = s.
Proof. reflexivity. Qed.

Lemma append_nil_r (s : string) : s +:+ EmptyString = s.
Proof. induction s as [|c s IH]; [reflexivity|]. rewrite append_cons, IH. done. Qed.

Lemma append_assoc (a b c : string) : (a +:+ b) +:+ c = a +:+ b +:+ c.
Proof. induction a as [|x a IH]; [reflexivity|]. rewrite !append_cons, IH. done. Qed.

Lemma append_length (a b : string) :
  String.length (a +:+ b) = String.length a + String.length b.
Proof.
  induction a as [|x a IH]; [reflexivity|]. rewrite append_cons. cbn. rewrite IH. done.
Qed.

Lemma append_inj_r (a b c : string) : a +:+ c = b +:+ c -> a = b.
Proof.
  revert b. induction a as [|x a IH]; intros [|y b] H.
  - done.
  - apply (f_equal String.length) in H.
    rewrite append_nil_l, append_cons in H. cbn in H.
    rewrite append_length in H. lia.
  - apply (f_equal String.length) in H.
    rewrite append_nil_l, append_cons in H. cbn in H.
    rewrite append_length in H. lia.
  - rewrite !append_cons in H. injection H as -> H. f_equal. auto.
Qed.

Lemma list_ascii_of_append (a b : string) :
  list_ascii_of_string (a +:+ b) = list_ascii_of_string a ++ list_ascii_of_string b.
Proof.
  induction a as [|x a IH]; [reflexivity|]. rewrite append_cons.
  change (x :: list_ascii_of_string (a +:+ b)
          = x :: list_ascii_of_string a ++ list_ascii_of_string b).
  rewrite IH. reflexivity.
Qed.

Lemma last_char_is_Some c (s : string) : is_Some (Py.last_char (String c s)).
Proof.
  revert c. induction s as [|d s IH]; intros c; [by eexists|].
  change (is_Some (Py.last_char (String d s))). apply IH.
Qed.

Lemma last_char_cons c (s : string) :
  Py.last_char (String c s)
  = match Py.last_char s with Some x => Some x | None => Some c end.
Proof.
  destruct s as [|d s]; [reflexivity|].
  change (Py.last_char (String c (String d s))) with (Py.last_char (String d s)).
  destruct (last_char_is_Some d s) as [x ->]. reflexivity.
Qed.

Lemma last_char_append (a b : string) :
  Py.last_char (a +:+ b)
  = match Py.last_char b with Some x => Some x | None => Py.last_char a end.
Proof.
  induction a as [|x a IH].
  - rewrite append_nil_l. destruct (Py.last_char b); reflexivity.
  - rewrite append_cons, !last_char_cons, IH.
    destruct (Py.last_char b); reflexivity.
Qed.

(** *** [str.split] and its last element *)

Lemma index_last_is_Some {A} (x : A) (l : list A) : is_Some (Py.index_last (x :: l)).
Proof.
  revert x. induction l as [|y l IH]; intros x; [by eexists|].
  change (is_Some (Py.index_last (y :: l))). apply IH.
Qed.

Lemma index_last_cons {A} (x : A) (l : list A) :
  Py.index_last (x :: l)
  = match Py.index_last l with Some y => Some y | None => Some x end.
Proof.
  destruct l as [|y l]; [reflexivity|].
  change (Py.index_last (x :: y :: l)) with (Py.index_last (y :: l)).
  destruct (index_last_is_Some y l) as [z ->]. reflexivity.
Qed.

Lemma index_last_None {A} (l : list A) : Py.index_last l = None -> l = [].
Proof.
  destruct l as [|x l]; [done|]. rewrite index_last_cons.
  destruct (Py.index_last l); done.
Qed.

Lemma split_go_nil s cur :
  Py.split_go cur s = [] -> cur = EmptyString ∧ all_space s.
Proof.
  revert cur. induction s as [|c s IH]; intros cur H; cbn in H.
  - destruct cur; [|done]. split; [done|]. constructor.
  - destruct (Py.isspace c) eqn:Hc.
    + destruct cur; [|done]. destruct (IH _ H) as [_ Hs].
      split; [done|]. constructor; assumption.
    + destruct (IH _ H) as [Hcur _]. destruct cur; discriminate Hcur.
Qed.

Lemma split_go_last s : ∀ cur t,
  no_space cur ->
  Py.index_last (Py.split_go cur s) = Some t ->
  t ≠ EmptyString ∧ no_space t ∧
  ∃ pre post, cur +:+ s = pre +:+ t +:+ post ∧ all_space post ∧
    (pre = EmptyString ∨ ∃ c, Py.last_char pre = Some c ∧ Py.isspace c = true).
Proof.
  induction s as [|c s IH]; intros cur t Hcur H.
  - cbn in H. destruct cur as [|x cur]; [done|]. injection H as <-.
    split; [done|]. split; [done|].
    exists EmptyString, EmptyString. rewrite !append_nil_r.
    split; [done|]. split; [constructor|]. by left.
  - cbn [Py.split_go] in H. destruct (Py.isspace c) eqn:Hc.
    + assert (Hrest : ∀ t', Py.index_last (Py.split_go EmptyString s) = Some t' ->
                t' ≠ EmptyString ∧ no_space t' ∧
                ∃ pre post, cur +:+ String c s = pre +:+ t' +:+ post ∧ all_space post ∧
                  (pre = EmptyString ∨ ∃ c0, Py.last_char pre = Some c0 ∧ Py.isspace c0 = true)).
      { intros t' Ht'.
        destruct (IH EmptyString t') as (Hne & Hns & pre & post & Heq & Hpost & Hpre);
          [constructor|done|].
        split; [done|]. split; [done|].
        exists (cur +:+ String c pre), post.
        split.
        { rewrite append_assoc, append_cons. f_equal. f_equal. exact Heq. }
        split; [done|]. right.
        rewrite last_char_append, last_char_cons.
        destruct Hpre as [->|(c0 & -> & Hc0)]; cbn; eauto. }
      destruct cur as [|x cur]; [by apply Hrest|].
      rewrite index_last_cons in H.
      destruct (Py.index_last (Py.split_go EmptyString s)) as [t'|] eqn:Hl.
      * injection H as <-. by apply Hrest.
      * injection H as <-. apply index_last_None, split_go_nil in Hl as [_ Hs].
        split; [done|]. split; [done|].
        exists EmptyString, (String c s). split; [done|].
        split; [constructor; assumption|]. by left.
    + destruct (IH (cur +:+ String c EmptyString) t) as (Hne & Hns & pre & post & Heq & Hpost & Hpre).
      * unfold no_space in *. rewrite list_ascii_of_append.
        apply Forall_app. split; [done|]. repeat constructor. exact Hc.
      * exact H.
      * split; [done|]. split; [done|]. exists pre, post.
        split; [|done]. rewrite <- Heq, append_assoc. reflexivity.
Qed.

Lemma startswith_wait_split k :
  Py.startswith k "wait" = true -> Py.split k ≠ [].
Proof.
  destruct k as [|c k]; [done|]. unfold Py.startswith. cbn [String.prefix].
  destruct (ascii_dec "w" c) as [<-|]; [|done]. intros _.
  unfold Py.split. cbn. intros H. apply split_go_nil in H as [H _]. done.
Qed.


Import QemuRunner.

(** *** The monad and the methods of the runner in closed form *)

(** Closes an equation between closed terms by evaluating both sides. *)
Ltac by_computation :=
  match goal with
  | |- ?l = ?r => exact (@eq_refl _ r <: l = r)
  end.

(** The same for membership in a concrete set and for its negation. *)
Ltac member_by_computation :=
  match goal with
  | |- ?x ∈ ?X => apply (bool_decide_eq_true_1 (x ∈ X)); by_computation
  | |- ?x ∉ ?X => apply (bool_decide_eq_false_1 (x ∈ X)); by_computation
  end.

Ltac run_monad :=
  cbv [bind ret raise emit gets modify try_except lift update the_vnc_client
       Sys.sleep Sys.print Sys.keyPress Sys.captureScreen Sys.screen_save
       Sys.terminate Sys.send Sys.expectScreen Sys.connect Sys.socket Sys.setenv Sys.emulator_binds].


Lemma bind_raise {S A B} (m : M S A) (k : A -> M S B) s e s1 ev1 :
  m s = (Raise e, s1, ev1) ->
  bind m k s = (Raise e, s1, ev1).
Proof. intros H. unfold bind. rewrite H. reflexivity. Qed.



(** *** The calls whose arguments do not bind *)

Lemma new_runner_raises test w :
  MenuTest.new_runner test w = (Raise TypeError, w, []).
Proof. reflexivity. Qed.

Lemma step_delay_key_total k : ∃ delay key, MenuTest.step_delay_key k = Some (delay, key).
Proof.
  unfold MenuTest.step_delay_key.
  destruct (Py.startswith k "wait") eqn:Hw; [|by eexists _, _].
  destruct (Py.index_last (Py.split k)) as [key|] eqn:Hl; [by eexists _, _|].
  apply index_last_None in Hl. by apply startswith_wait_split in Hw.
Qed.

Lemma loop_body_raises env test k s :
  MenuTest.loop_body env test k s = (Raise TypeError, s, []).
Proof.
  unfold MenuTest.loop_body.
  destruct (step_delay_key_total k) as (delay & key & ->). reflexivity.
Qed.


Lemma for_loop_raises env test k rest s :
  MenuTest.for_loop env test (k :: rest) s = (Raise TypeError, s, []).
Proof. cbn [MenuTest.for_loop]. apply bind_raise, loop_body_raises. Qed.

(** *** The other methods in closed form *)


Lemma enter_eq env s :
  __enter__ env s
  = match popen_error env with
    | Some e =>
        (Raise e,
         mkState (mkWorld (fs (outside s))
                    (<["QEMU_EOS_WORKDIR" := rom_dir (self s)]> (environ (outside s)))
                    (next_pid (outside s)) (next_fd (outside s)))
                 (self s),
         [EvPrintArgv (qemu_command (self s))])
    | None => (Ok tt, entered env s, enter_events s)
    end.
Proof.
  unfold __enter__, entered, enter_events, Sys.Popen. destruct s as [w q].
  run_monad. cbv beta iota delta [outside self fs environ next_pid next_fd Sys.set_fs].
  destruct (popen_error env); reflexivity.
Qed.

Lemma exit_eq s pid :
  qemu_process (self s) = Some pid ->
  __exit__ s = (Ok tt, exited s, [EvTerminate pid]).
Proof.
  intros Hp. unfold __exit__, exited, Sys.os_remove. destruct s as [w q].
  cbn [self outside] in *.
  run_monad. cbv beta iota delta [outside self]. rewrite Hp.
  destruct (bool_decide _); reflexivity.
Qed.


Lemma exited_absent s :
  monitor_socket_path (self s) ∉ fs (outside (exited s)).
Proof.
  unfold exited.
  destruct (decide (monitor_socket_path (self s) ∈ fs (outside s))) as [H|H].
  - rewrite (bool_decide_eq_true_2 _ H). cbn.
    intros [_ Hnot]%elem_of_difference. apply Hnot, elem_of_singleton. reflexivity.
  - rewrite (bool_decide_eq_false_2 _ H). exact H.
Qed.

Lemma exited_self s : self (exited s) = self s.
Proof. unfold exited. case_bool_decide; reflexivity. Qed.

Lemma shutdown_eq env force s :
  shutdown env force s
  = let fd := next_fd (outside s) in
    let p := monitor_socket_path (self s) in
    if bool_decide (p ∈ fs (outside s))
    then if monitor_accepts env
         then (Ok tt, socket_opened s,
               [EvSocket fd; EvSockConnect fd p; EvSockSend fd (monitor_command force);
                EvSleep 2%Q])
         else (Raise ConnectionRefusedError, socket_opened s,
               [EvSocket fd; EvSockConnect fd p])
    else (Raise FileNotFoundError, socket_opened s, [EvSocket fd; EvSockConnect fd p]).
Proof.
  unfold shutdown, socket_opened, monitor_command. destruct s as [w q].
  run_monad. cbv beta iota delta [outside self fs environ next_pid next_fd].
  destruct w as [f e np nf]. 
  destruct (bool_decide _); [destruct (monitor_accepts env)|]; destruct force; reflexivity.
Qed.

(** *** [run] in terms of its parts *)



Lemma run_unknown_model env test w :
  MenuTest.known_cams test !! MenuTest.model (MenuTest.cam test) = None ->
  MenuTest.run env test w
  = (Ok (MenuTest.Failed ("No tests known for cam: " +:+ MenuTest.model (MenuTest.cam test))),
     w, greeting test).
Proof.
  intros H. unfold MenuTest.run, greeting. cbv zeta. rewrite H.
  run_monad. destruct (MenuTest.verbose test); reflexivity.
Qed.

Lemma run_unknown_rom env test w roms :
  MenuTest.known_cams test !! MenuTest.model (MenuTest.cam test) = Some roms ->
  MenuTest.code_rom_md5 (MenuTest.cam test) ∉ roms ->
  MenuTest.run env test w
  = (Ok (MenuTest.Failed
           ("Unknown rom for cam, MD5 sum: " +:+ MenuTest.code_rom_md5 (MenuTest.cam test))),
     w, greeting test).
Proof.
  intros H Hn. unfold MenuTest.run, greeting. cbv zeta. rewrite H.
  rewrite (bool_decide_eq_false_2 _ Hn).
  run_monad. destruct (MenuTest.verbose test); reflexivity.
Qed.

Lemma run_no_sequence env test w roms :
  MenuTest.known_cams test !! MenuTest.model (MenuTest.cam test) = Some roms ->
  MenuTest.code_rom_md5 (MenuTest.cam test) ∈ roms ->
  MenuTest.qemu_key_sequences !! MenuTest.code_rom_md5 (MenuTest.cam test) = None ->
  MenuTest.run env test w
  = (Ok (MenuTest.Failed
           ("Unknown rom for MenuTest, MD5 sum: "
            +:+ MenuTest.code_rom_md5 (MenuTest.cam test))),
     w, greeting test).
Proof.
  intros H Hn Hk. unfold MenuTest.run, greeting. cbv zeta. rewrite H.
  rewrite (bool_decide_eq_true_2 _ Hn). rewrite Hk.
  run_monad. destruct (MenuTest.verbose test); reflexivity.
Qed.

Lemma run_configured env test w roms keys :
  MenuTest.known_cams test !! MenuTest.model (MenuTest.cam test) = Some roms ->
  MenuTest.code_rom_md5 (MenuTest.cam test) ∈ roms ->
  MenuTest.qemu_key_sequences !! MenuTest.code_rom_md5 (MenuTest.cam test) = Some keys ->
  MenuTest.run env test w = (Raise TypeError, w, greeting test).
Proof.
  intros H Hn Hk. unfold MenuTest.run, greeting. cbv zeta. rewrite H.
  rewrite (bool_decide_eq_true_2 _ Hn). rewrite Hk.
  rewrite (bind_raise _ _ _ _ _ _ (new_runner_raises test _)) || idtac.
  destruct (MenuTest.verbose test); reflexivity.
Qed.


(** *** What the body of the [with] statement leaves alone *)



(** *** Capture names *)

Lemma uint_of_zeros k s :
  NilEmpty.uint_of_string (Py.zeros k +:+ s)
  = option_map (Nat.iter k Decimal.D0) (NilEmpty.uint_of_string s).
Proof.
  induction k as [|k IH].
  - rewrite append_nil_l. destruct (NilEmpty.uint_of_string s); reflexivity.
  - change (Py.zeros (S k) +:+ s) with (String "0"%char (Py.zeros k +:+ s)).
    cbn [NilEmpty.uint_of_string]. rewrite IH.
    destruct (NilEmpty.uint_of_string s); reflexivity.
Qed.

Lemma of_uint_zeros k d : Nat.of_uint (Nat.iter k Decimal.D0 d) = Nat.of_uint d.
Proof. induction k as [|k IH]; [reflexivity|]. cbn [Nat.iter nat_rect]. exact IH. Qed.

Lemma string_of_uint_unsigned d :
  match NilEmpty.string_of_uint d with
  | EmptyString => True
  | String c _ => (Ascii.eqb c "+"%char || Ascii.eqb c "-"%char)%bool = false
  end.
Proof. destruct d; cbn; done. Qed.

Lemma zfill_unsigned w s :
  match s with
  | EmptyString => True
  | String c _ => (Ascii.eqb c "+"%char || Ascii.eqb c "-"%char)%bool = false
  end ->
  Py.zfill w s = Py.zeros (w - String.length s) +:+ s.
Proof.
  unfold Py.zfill. destruct s as [|c s]; intros H.
  - rewrite append_nil_r. reflexivity.
  - rewrite H. reflexivity.
Qed.

Lemma parse_zfill_str w n : parse_nat (Py.zfill w (Py.str n)) = n.
Proof.
  unfold Py.str. rewrite zfill_unsigned by apply string_of_uint_unsigned.
  unfold parse_nat. rewrite uint_of_zeros, NilEmpty.usu. cbn [option_map].
  rewrite of_uint_zeros. apply Unsigned.of_to.
Qed.

Lemma capture_name_inj prefix n m :
  capture_name prefix n = capture_name prefix m -> n = m.
Proof.
  unfold capture_name. intros H.
  apply String.app_inj, append_inj_r in H.
  rewrite <- (parse_zfill_str 2 n), <- (parse_zfill_str 2 m), H. reflexivity.
Qed.

Lemma zfill_two_digits n : n < 100 -> Py.zfill 2 (Py.str n) = two_digits n.
Proof.
  intros Hn.
  assert (Hall : forallb (fun i => String.eqb (Py.zfill 2 (Py.str i)) (two_digits i))
                   (seq 0 100) = true) by (vm_compute; reflexivity).
  rewrite forallb_forall in Hall.
  apply String.eqb_eq, Hall, in_seq. lia.
Qed.





(** *** Replaying a sequence of keys *)



(** ** The claims *)








(** C4: when the model is not in the registry, or the ROM checksum is not
    registered for the model, or no key sequence is known for the checksum,
    [run] returns a failure that names the first check that failed, leaves
    the world as it was (no process, no socket, no file), and emits nothing
    but its greeting: no process is started and no channel is opened. *)
Theorem unknown_configuration_fails_before_launch env test w :
  unknown_configuration test ->
  ∃ reason,
    MenuTest.run env test w = (Ok (MenuTest.Failed reason), w, greeting test)
    ∧ forallb (fun ev => negb (acquires ev)) (events_of (MenuTest.run env test w)) = true
    ∧ reason ∈ [ "No tests known for cam: " +:+ MenuTest.model (MenuTest.cam test);
                 "Unknown rom for cam, MD5 sum: " +:+ MenuTest.code_rom_md5 (MenuTest.cam test);
                 "Unknown rom for MenuTest, MD5 sum: "
                   +:+ MenuTest.code_rom_md5 (MenuTest.cam test) ].
Proof.
  intros Hbad.
  assert (Hg : forallb (fun ev => negb (acquires ev)) (greeting test) = true)
    by (unfold greeting; destruct (MenuTest.verbose test); reflexivity).
  destruct (MenuTest.known_cams test !! MenuTest.model (MenuTest.cam test))
    as [roms|] eqn:Hm.
  - destruct (decide (MenuTest.code_rom_md5 (MenuTest.cam test) ∈ roms)) as [Hin|Hin].
    + assert (Hk : MenuTest.qemu_key_sequences
                     !! MenuTest.code_rom_md5 (MenuTest.cam test) = None).
      { destruct Hbad as [Hb|[(roms' & Hb & Hn)|Hb]]; [congruence| |exact Hb].
        rewrite Hm in Hb. injection Hb as <-. contradiction. }
      eexists. rewrite (run_no_sequence _ _ _ _ Hm Hin Hk).
      split; [reflexivity|]. split; [exact Hg|]. set_solver.
    + eexists. rewrite (run_unknown_rom _ _ _ _ Hm Hin).
      split; [reflexivity|]. split; [exact Hg|]. set_solver.
  - eexists. rewrite (run_unknown_model _ _ _ Hm).
    split; [reflexivity|]. split; [exact Hg|]. set_solver.
Qed.

Lemma unknown_configuration_fails_before_launch_witness :
  ∃ reason,
    MenuTest.run Examples.env_match Examples.test_unknown Examples.world_refs
    = (Ok (MenuTest.Failed reason), Examples.world_refs, greeting Examples.test_unknown)
    ∧ forallb (fun ev => negb (acquires ev))
        (events_of (MenuTest.run Examples.env_match Examples.test_unknown
                      Examples.world_refs)) = true
    ∧ reason ∈ [ "No tests known for cam: 5D2";
                 "Unknown rom for cam, MD5 sum: e06a0e3919ac4d4ef609a864e937a5d3";
                 "Unknown rom for MenuTest, MD5 sum: e06a0e3919ac4d4ef609a864e937a5d3" ].
Proof.
  apply (unknown_configuration_fails_before_launch
           Examples.env_match Examples.test_unknown Examples.world_refs).
  left. reflexivity.
Defined.

(** C5: the code does not get to a comparison.  For every known
    configuration [run] raises TypeError at the constructor call of lines
    95 to 103, whose arguments do not bind to [__init__] of run.py: the
    world is as it was and the greeting is the only event.  So a missing
    reference image gives neither a failure that names the path nor a run
    that proceeds, whatever force_continue is.  The clause for
    FileNotFoundError that the run never reaches is the one the claim
    describes: it goes on under force_continue and otherwise returns the
    failure that names the path. *)
Theorem missing_reference_is_never_compared env test w roms keys :
  MenuTest.known_cams test !! MenuTest.model (MenuTest.cam test) = Some roms ->
  MenuTest.code_rom_md5 (MenuTest.cam test) ∈ roms ->
  MenuTest.qemu_key_sequences !! MenuTest.code_rom_md5 (MenuTest.cam test) = Some keys ->
  MenuTest.run env test w = (Raise TypeError, w, greeting test)
  ∧ (∀ reason, result_of (MenuTest.run env test w) ≠ Ok (MenuTest.Failed reason))
  ∧ result_of (MenuTest.run env test w) ≠ Ok MenuTest.Succeeded
  ∧ (∀ path s,
       ∃ clause, MenuTest.on_expect_error test path FileNotFoundError = Some clause
                 ∧ clause s
                   = (Ok (if MenuTest.force_continue test then None
                          else Some (MenuTest.Failed
                                       ("Missing expected output file: " +:+ path))),
                      s, [])).
Proof.
  intros Hm Hin Hk. rewrite (run_configured _ _ _ _ _ Hm Hin Hk).
  split; [reflexivity|]. split; [intros reason; discriminate|].
  split; [discriminate|].
  intros path s. eexists. split; [reflexivity|].
  destruct (MenuTest.force_continue test); reflexivity.
Qed.

Lemma missing_reference_is_never_compared_witness :
  MenuTest.run Examples.env_match (Examples.test_100D false) Examples.world_gap
  = (Raise TypeError, Examples.world_gap, [])
  ∧ MenuTest.run Examples.env_match (Examples.test_100D true) Examples.world_gap
    = (Raise TypeError, Examples.world_gap, []).
Proof.
  split.
  - destruct (missing_reference_is_never_compared Examples.env_match
                (Examples.test_100D false) Examples.world_gap
                {[ Examples.md5_100D ]} Examples.keys_100D) as [Hrun _];
      [by_computation|member_by_computation|by_computation|exact Hrun].
  - destruct (missing_reference_is_never_compared Examples.env_match
                (Examples.test_100D true) Examples.world_gap
                {[ Examples.md5_100D ]} Examples.keys_100D) as [Hrun _];
      [by_computation|member_by_computation|by_computation|exact Hrun].
Defined.

(** C6: the code does not get to a timeout.  On every runner, also one
    made with the parameters that run.py has and inside its context, the
    first step of a sequence raises TypeError at line 131, where
    [key_press] is called with the keyword [delay] that it does not have:
    no key is pressed, nothing is captured or compared and no snapshot is
    saved.  The clause for TimeoutError could not save one either: it
    starts by reading [q.screen_cap_name], which run.py never assigns. *)
Theorem timeout_clause_is_never_reached env test k rest s path :
  MenuTest.loop_body env test k s = (Raise TypeError, s, [])
  ∧ MenuTest.for_loop env test (k :: rest) s = (Raise TypeError, s, [])
  ∧ saves (events_of (MenuTest.for_loop env test (k :: rest) s)) = []
  ∧ ∃ clause, MenuTest.on_expect_error test path TimeoutError = Some clause
              ∧ clause s = (Raise AttributeError, s, []).
Proof.
  rewrite for_loop_raises, loop_body_raises.
  repeat split. eexists. split; reflexivity.
Qed.

(** C7: lines 124 to 130 resolve a step to a delay and a key.  A step that
    does not start with "wait" is resolved to itself and the short delay
    0.3; a step that starts with "wait" is resolved to the long delay 5 and
    the final whitespace-separated token of the step string, which always
    exists. *)
Theorem step_delay_and_key k :
  (Py.startswith k "wait" = false -> MenuTest.step_delay_key k = Some (0.3%Q, k))
  ∧ (Py.startswith k "wait" = true ->
     ∃ key, MenuTest.step_delay_key k = Some (5%Q, key) ∧ final_token k key).
Proof.
  split.
  - intros H. unfold MenuTest.step_delay_key. rewrite H. reflexivity.
  - intros H. unfold MenuTest.step_delay_key. rewrite H.
    destruct (Py.index_last (Py.split k)) as [key|] eqn:Hl.
    + exists key. split; [done|].
      destruct (split_go_last k EmptyString key) as (Hne & Hns & pre & post & Heq & Hrest);
        [constructor|exact Hl|].
      split; [done|]. split; [done|]. exists pre, post. done.
    + apply index_last_None in Hl. by apply startswith_wait_split in H.
Qed.

Lemma step_delay_and_key_witness :
  MenuTest.step_delay_key "m" = Some (0.3%Q, "m")
  ∧ (∃ key, MenuTest.step_delay_key "wait l" = Some (5%Q, key)
            ∧ final_token "wait l" key).
Proof.
  destruct (step_delay_and_key "m") as (Hshort & _).
  destruct (step_delay_and_key "wait l") as (_ & Hlong).
  split; [exact (Hshort eq_refl)|exact (Hlong eq_refl)].
Defined.

(** C8 as stated does not hold: on a runner whose monitor socket accepts the
    connection, [shutdown] emits no close between the write and the wait. *)
Lemma shutdown_never_closes :
  ¬ closes_before_waiting Examples.env_match false Examples.state_bound.
Proof. unfold closes_before_waiting. vm_compute. intros H. discriminate H. Qed.

(** C8, amended: every [shutdown] creates one new socket (the next free
    handle, which is then used up) and connects it to the monitor socket
    path.  When the socket file exists and the emulator accepts, it writes
    exactly one command, "quit" or "system_powerdown" by [force], ended by a
    line feed and made of ASCII characters only, then sleeps 2 and returns;
    otherwise the connect raises and nothing is written.  It never reads
    and never closes the socket itself. *)
Theorem shutdown_protocol env force s :
  let x := shutdown env force s in
  let fd := next_fd (outside s) in
  let p := monitor_socket_path (self s) in
  let command := (if force then "quit" else "system_powerdown") +:+ Py.LF in
  sockets (events_of x) = [fd]
  ∧ next_fd (outside (state_of x)) = S fd
  ∧ forallb (fun ev => match ev with
                       | EvSockRecv _ | EvSockClose _ => false
                       | _ => true
                       end) (events_of x) = true
  ∧ forallb (fun c => nat_of_ascii c <? 128) (list_ascii_of_string command) = true
  ∧ (p ∈ fs (outside s) -> monitor_accepts env = true ->
     x = (Ok tt, socket_opened s,
          [EvSocket fd; EvSockConnect fd p; EvSockSend fd command; EvSleep 2%Q]))
  ∧ (p ∈ fs (outside s) -> monitor_accepts env = false ->
     x = (Raise ConnectionRefusedError, socket_opened s,
          [EvSocket fd; EvSockConnect fd p]))
  ∧ (p ∉ fs (outside s) ->
     x = (Raise FileNotFoundError, socket_opened s, [EvSocket fd; EvSockConnect fd p])).
Proof.
  cbv zeta. rewrite shutdown_eq. cbv zeta.
  assert (Hcmd : monitor_command force
                 = (if force then "quit" else "system_powerdown") +:+ Py.LF)
    by (destruct force; reflexivity).
  rewrite Hcmd.
  split; [|split; [|split; [|split; [|split; [|split]]]]].
  - destruct (bool_decide _); [destruct (monitor_accepts env)|]; reflexivity.
  - destruct (bool_decide _); [destruct (monitor_accepts env)|]; reflexivity.
  - destruct (bool_decide _); [destruct (monitor_accepts env)|]; reflexivity.
  - destruct force; vm_compute; reflexivity.
  - intros Hin Hacc. rewrite (bool_decide_eq_true_2 _ Hin), Hacc. reflexivity.
  - intros Hin Hacc. rewrite (bool_decide_eq_true_2 _ Hin), Hacc. reflexivity.
  - intros Hin. rewrite (bool_decide_eq_false_2 _ Hin). reflexivity.
Qed.

Lemma shutdown_protocol_witness :
  (shutdown Examples.env_match true Examples.state_bound
   = (Ok tt, socket_opened Examples.state_bound,
      [EvSocket 3; EvSockConnect 3 "qemu.monitor"; EvSockSend 3 ("quit" +:+ Py.LF);
       EvSleep 2%Q]))
  ∧ (shutdown Examples.env_match false Examples.state_bound
     = (Ok tt, socket_opened Examples.state_bound,
        [EvSocket 3; EvSockConnect 3 "qemu.monitor";
         EvSockSend 3 ("system_powerdown" +:+ Py.LF); EvSleep 2%Q]))
  ∧ (shutdown Examples.env_match false Examples.state_unbound
     = (Raise FileNotFoundError, socket_opened Examples.state_unbound,
        [EvSocket 3; EvSockConnect 3 "qemu.monitor"])).
Proof.
  assert (Hin : monitor_socket_path (self Examples.state_bound)
                  ∈ fs (outside Examples.state_bound))
    by (vm_compute; reflexivity).
  assert (Hout : monitor_socket_path (self Examples.state_unbound)
                   ∉ fs (outside Examples.state_unbound))
    by (vm_compute; intros H; inversion H).
  destruct (shutdown_protocol Examples.env_match true Examples.state_bound)
    as (_ & _ & _ & _ & Hquit & _).
  destruct (shutdown_protocol Examples.env_match false Examples.state_bound)
    as (_ & _ & _ & _ & Hdown & _).
  destruct (shutdown_protocol Examples.env_match false Examples.state_unbound)
    as (_ & _ & _ & _ & _ & _ & Hnone).
  exact (conj (Hquit Hin eq_refl) (conj (Hdown Hin eq_refl) (Hnone Hout))).
Defined.




(** C10: inside the context, [__exit__] returns normally whether or not
    something is at the monitor socket path.  When nothing is there it
    changes nothing and only terminates the process; after any [__exit__]
    nothing is there, and a second [__exit__] again returns normally and
    changes nothing. *)
Theorem exit_tolerates_absent_socket s pid :
  qemu_process (self s) = Some pid ->
  result_of (__exit__ s) = Ok tt
  ∧ (monitor_socket_path (self s) ∉ fs (outside s) ->
     __exit__ s = (Ok tt, s, [EvTerminate pid]))
  ∧ (monitor_socket_path (self s) ∉ fs (outside (state_of (__exit__ s))))
  ∧ __exit__ (state_of (__exit__ s)) = (Ok tt, state_of (__exit__ s), [EvTerminate pid]).
Proof.
  intros Hp.
  assert (Habs : ∀ s', qemu_process (self s') = Some pid ->
            monitor_socket_path (self s') ∉ fs (outside s') ->
            __exit__ s' = (Ok tt, s', [EvTerminate pid])).
  { intros s' Hp' Hn. rewrite (exit_eq _ _ Hp'). unfold exited.
    rewrite (bool_decide_eq_false_2 _ Hn). reflexivity. }
  split; [|split; [|split]].
  - rewrite (exit_eq _ _ Hp). reflexivity.
  - apply Habs, Hp.
  - rewrite (exit_eq _ _ Hp). apply exited_absent.
  - rewrite (exit_eq _ _ Hp). unfold state_of. cbn [fst snd]. apply Habs.
    + rewrite exited_self. exact Hp.
    + rewrite exited_self. apply exited_absent.
Qed.

Lemma exit_tolerates_absent_socket_witness :
  qemu_process (self Examples.state_unbound) = Some 100
  ∧ (monitor_socket_path (self Examples.state_unbound)
       ∉ fs (outside Examples.state_unbound))
  ∧ __exit__ Examples.state_unbound
    = (Ok tt, Examples.state_unbound, [EvTerminate 100])
  ∧ __exit__ (state_of (__exit__ Examples.state_bound))
    = (Ok tt, state_of (__exit__ Examples.state_bound), [EvTerminate 100]).
Proof.
  assert (Hn : monitor_socket_path (self Examples.state_unbound)
                 ∉ fs (outside Examples.state_unbound))
    by (vm_compute; intros H; inversion H).
  destruct (exit_tolerates_absent_socket Examples.state_unbound 100 eq_refl)
    as (_ & Habsent & _ & _).
  destruct (exit_tolerates_absent_socket Examples.state_bound 100 eq_refl)
    as (_ & _ & _ & Hagain).
  split; [reflexivity|]. split; [exact Hn|]. split; [exact (Habsent Hn)|exact Hagain].
Defined.


(** ** Further properties of the two files *)

(** X1: the monitor socket path of a runner is the path given to
    [__init__], or "qemu.monitor" when none is given; it is never empty, and
    it is the very path that the [-chardev] argument of the command line
    tells the emulator to bind. *)
Theorem monitor_path_is_on_the_command_line build_dir rom cam monitor display boot :
  let q := attributes build_dir rom cam monitor display boot in
  monitor_socket_path q = (if String.eqb monitor EmptyString then "qemu.monitor" else monitor)
  ∧ monitor_socket_path q ≠ EmptyString
  ∧ qemu_command q !! 5 = Some "-chardev"
  ∧ qemu_command q !! 6
    = Some ("socket,server,nowait,path=" +:+ monitor_socket_path q +:+ ",id=monsock").
Proof.
  cbv zeta. unfold attributes, truthy.
  destruct (String.eqb monitor EmptyString) eqn:Hm; destruct (String.eqb display EmptyString);
    cbn; repeat split; try done.
  - intros ->. discriminate Hm.
  - intros ->. discriminate Hm.
Qed.

(** X2: a runner built without a VNC display has no client, and one built
    with a display has one.  Without a client [key_press] raises
    AttributeError before it does anything, while [capture_screen] raises it
    only after its first sleep and after the counter has advanced: a
    counter value is used up although nothing was captured. *)
Theorem no_display_no_client build_dir rom cam monitor display boot w key capture :
  let q := attributes build_dir rom cam monitor display boot in
  let s := mkState w q in
  (display = EmptyString -> vnc_client q = None)
  ∧ (display ≠ EmptyString -> vnc_client q = Some (mkVnc display false))
  ∧ (vnc_client q = None ->
     key_press key capture s = (Raise AttributeError, s, [])
     ∧ capture_screen s
       = (Raise AttributeError,
          mkState w (set_screen_cap_counter (screen_cap_counter q + 1) q),
          [EvSleep 0.1%Q])).
Proof.
  cbv zeta. split; [|split].
  - intros ->. reflexivity.
  - intros Hd. unfold attributes, truthy.
    destruct (String.eqb display EmptyString) eqn:He; [|reflexivity].
    apply String.eqb_eq in He. contradiction.
  - intros Hc. split.
    + unfold key_press. run_monad. cbv beta iota delta [outside self].
      rewrite Hc. reflexivity.
    + unfold capture_screen. run_monad. cbv beta iota delta [outside self].
      assert (Hc' : vnc_client
                      (set_screen_cap_counter
                         (screen_cap_counter
                            (attributes build_dir rom cam monitor display boot) + 1)
                         (attributes build_dir rom cam monitor display boot)) = None)
        by exact Hc.
      rewrite Hc'. reflexivity.
Qed.

Lemma no_display_no_client_witness :
  capture_screen (mkState Examples.world_refs (fresh_runner Examples.test_no_display))
  = (Raise AttributeError,
     mkState Examples.world_refs
       (set_screen_cap_counter 1 (fresh_runner Examples.test_no_display)),
     [EvSleep 0.1%Q]).
Proof.
  destruct (no_display_no_client "build" "roms/100D" "100D" "qemu.monitor" EmptyString
              false Examples.world_refs "m" true) as (Hnone & _ & Hraise).
  exact (proj2 (Hraise (Hnone eq_refl))).
Defined.

(** X3: the emulator executable and the two disk images named on the
    command line lie under the build directory: each path is the build
    directory, a slash unless the directory is empty or already ends with
    one, and the fixed relative path. *)
Theorem command_paths_under_build_dir build_dir rom cam monitor display boot :
  let q := attributes build_dir rom cam monitor display boot in
  let sep := if (String.eqb build_dir EmptyString || Py.endswith_sep build_dir)%bool
             then EmptyString else "/" in
  qemu_command q !! 0 = Some (build_dir +:+ sep +:+ "arm-softmmu/qemu-system-arm")
  ∧ qemu_command q !! 2
    = Some ("if=sd,format=raw,file=" +:+ build_dir +:+ sep +:+ "disk_images/sd.img")
  ∧ qemu_command q !! 4
    = Some ("if=ide,format=raw,file=" +:+ build_dir +:+ sep +:+ "disk_images/cf.img").
Proof.
  cbv zeta.
  assert (Hjoin : ∀ a b : string,
            a ≠ EmptyString -> Py.last_char a ≠ Some "/"%char ->
            Py.startswith a "/" = false -> Py.startswith b "/" = false ->
            Py.path_join build_dir [a; b]
            = build_dir
              +:+ (if (String.eqb build_dir EmptyString || Py.endswith_sep build_dir)%bool
                   then EmptyString else "/")
              +:+ a +:+ "/" +:+ b).
  { intros a b Ha Hl Hsa Hsb. cbn [Py.path_join]. rewrite Hsa, Hsb.
    set (first := if (String.eqb build_dir EmptyString || Py.endswith_sep build_dir)%bool
                  then build_dir +:+ a else build_dir +:+ "/" +:+ a).
    assert (Hne : String.eqb first EmptyString = false).
    { apply String.eqb_neq. intros H. apply (f_equal String.length) in H.
      unfold first in H.
      destruct (_ || _)%bool; rewrite ?append_length in H;
        destruct a; [done|cbn in H; lia|done|cbn in H; lia]. }
    assert (Hsep : Py.endswith_sep first = false).
    { unfold Py.endswith_sep, first.
      destruct (_ || _)%bool; rewrite ?last_char_append;
        destruct a as [|c a]; try done;
        destruct (last_char_is_Some c a) as [x Hx]; rewrite Hx in *;
        destruct (Ascii.eqb_spec x "/"); congruence. }
    rewrite Hne, Hsep. cbn [orb]. unfold first.
    destruct (_ || _)%bool; rewrite ?append_assoc; reflexivity. }
  unfold attributes. destruct (truthy display); cbn [qemu_command lookup list_lookup];
    rewrite !Hjoin by done; cbn; rewrite ?append_assoc; done.
Qed.

(** X4: [__enter__] always leaves QEMU_EOS_WORKDIR set to the ROM directory
    in the process environment.  When the launch succeeds it stores the
    handle of the one process it started, launched with exactly the command
    line of the runner, and ends with the settle sleep of 1.5.  When the
    launch raises, the exception leaves [__enter__], no process was
    started, no handle is stored and no file has changed, but the
    environment variable stays set. *)
Theorem enter_launches_or_stores_nothing env s :
  let x := __enter__ env s in
  environ (outside (state_of x)) !! "QEMU_EOS_WORKDIR" = Some (rom_dir (self s))
  ∧ (popen_error env = None ->
     result_of x = Ok tt
     ∧ qemu_process (self (state_of x)) = Some (next_pid (outside s))
     ∧ events_of x
       = [ EvPrintArgv (qemu_command (self s));
           EvPopen (next_pid (outside s)) (qemu_command (self s));
           EvSleep 1.5%Q ]
     ∧ next_pid (outside (state_of x)) = S (next_pid (outside s)))
  ∧ (∀ e, popen_error env = Some e ->
     result_of x = Raise e
     ∧ self (state_of x) = self s
     ∧ launched (events_of x) = []
     ∧ fs (outside (state_of x)) = fs (outside s)
     ∧ next_pid (outside (state_of x)) = next_pid (outside s)).
Proof.
  cbv zeta. rewrite enter_eq.
  destruct (popen_error env) as [e|]; unfold result_of, state_of, events_of; cbn.
  - split; [apply lookup_insert_eq|]. split; [discriminate|].
    intros e' [= <-]. done.
  - split; [apply lookup_insert_eq|]. split; [done|]. discriminate.
Qed.

Lemma enter_launches_or_stores_nothing_witness :
  qemu_process
    (self (state_of (__enter__ Examples.env_match
                       (mkState Examples.world_refs (fresh_runner (Examples.test_100D false))))))
  = Some 100
  ∧ result_of (__enter__ (mkEnv (Some (OtherError "PermissionError")) true true (fun _ => None))
                 (mkState Examples.world_refs (fresh_runner (Examples.test_100D false))))
    = Raise (OtherError "PermissionError").
Proof.
  destruct (enter_launches_or_stores_nothing Examples.env_match
              (mkState Examples.world_refs (fresh_runner (Examples.test_100D false))))
    as (_ & Hok & _).
  destruct (enter_launches_or_stores_nothing
              (mkEnv (Some (OtherError "PermissionError")) true true (fun _ => None))
              (mkState Examples.world_refs (fresh_runner (Examples.test_100D false))))
    as (_ & _ & Hfail).
  destruct (Hok eq_refl) as (_ & Hpid & _).
  destruct (Hfail _ eq_refl) as (Hraise & _).
  exact (conj Hpid Hraise).
Defined.



(** X6: the number in a capture name is the counter value written in
    decimal with at least two digits and never cut: read back it gives the
    counter again, for every counter value, also beyond 99.  Hence two
    captures under one prefix have the same name only for the same counter
    value. *)
Theorem capture_number_reads_back prefix n :
  ∃ digits,
    capture_name prefix n = prefix +:+ digits +:+ ".png"
    ∧ parse_nat digits = n
    ∧ 2 <= String.length digits
    ∧ (n < 100 -> String.length digits = 2)
    ∧ ∀ m, capture_name prefix m = capture_name prefix n -> m = n.
Proof.
  exists (Py.zfill 2 (Py.str n)).
  split; [reflexivity|]. split; [apply parse_zfill_str|].
  assert (Hlen : ∀ k, String.length (Py.zeros k) = k)
    by (intros k; induction k as [|k IH]; cbn; congruence).
  split; [|split].
  - unfold Py.str. rewrite zfill_unsigned by apply string_of_uint_unsigned.
    rewrite append_length, Hlen. lia.
  - intros Hn. rewrite (zfill_two_digits _ Hn). reflexivity.
  - intros m. apply capture_name_inj.
Qed.

Lemma capture_number_reads_back_witness :
  ∃ digits,
    capture_name "test_" 7 = "test_" +:+ digits +:+ ".png"
    ∧ parse_nat digits = 7
    ∧ 2 <= String.length digits
    ∧ String.length digits = 2.
Proof.
  destruct (capture_number_reads_back "test_" 7) as (digits & Hname & Hparse & Hle & Hlen & _).
  exists digits. repeat split; [exact Hname|exact Hparse|exact Hle|apply Hlen; lia].
Defined.

(** X7: writing "wait", some whitespace and a key as a step gives that key
    back with the long delay: for every non-empty key without whitespace
    and every non-empty run of whitespace, the step is resolved to the
    delay 5 and exactly the key. *)
Theorem wait_prefix_round_trip sep key :
  sep ≠ EmptyString -> all_space sep ->
  key ≠ EmptyString -> no_space key ->
  MenuTest.step_delay_key ("wait" +:+ sep +:+ key) = Some (5%Q, key).
Proof.
  intros Hsep Hspace Hkey Hword.
  assert (Hrun : ∀ word cur rest, no_space word ->
            Py.split_go cur (word +:+ rest) = Py.split_go (cur +:+ word) rest).
  { intros word. induction word as [|c word IH]; intros cur rest Hns.
    - rewrite append_nil_l, append_nil_r. reflexivity.
    - inversion Hns as [|? ? Hc Ht]; subst. rewrite append_cons.
      cbn [Py.split_go]. rewrite Hc, (IH _ _ Ht), append_assoc. reflexivity. }
  assert (Hskip : ∀ gap rest, all_space gap ->
            Py.split_go EmptyString (gap +:+ rest) = Py.split_go EmptyString rest).
  { intros gap. induction gap as [|c gap IH]; intros rest Hs; [reflexivity|].
    inversion Hs as [|? ? Hc Ht]; subst. rewrite append_cons.
    cbn [Py.split_go]. rewrite Hc. apply IH, Ht. }
  assert (Hend : ∀ cur gap rest, cur ≠ EmptyString -> gap ≠ EmptyString -> all_space gap ->
            Py.split_go cur (gap +:+ rest) = cur :: Py.split_go EmptyString rest).
  { intros cur [|c gap] rest Hcur Ht Hs; [done|].
    inversion Hs as [|? ? Hc Ht']; subst. rewrite append_cons.
    cbn [Py.split_go]. rewrite Hc. destruct cur; [done|].
    f_equal. apply Hskip, Ht'. }
  unfold MenuTest.step_delay_key.
  assert (Hstart : Py.startswith ("wait" +:+ sep +:+ key) "wait" = true)
    by (destruct (sep +:+ key); reflexivity).
  rewrite Hstart. unfold Py.split.
  rewrite (Hrun "wait" EmptyString) by (repeat constructor).
  rewrite append_nil_l, (Hend "wait" sep key) by done.
  rewrite <- (append_nil_r key), (Hrun key EmptyString EmptyString Hword), append_nil_l.
  rewrite append_nil_r. destruct key; [done|reflexivity].
Qed.

Lemma wait_prefix_round_trip_witness :
  MenuTest.step_delay_key ("wait" +:+ " " +:+ "pgdn") = Some (5%Q, "pgdn").
Proof.
  apply (wait_prefix_round_trip " " "pgdn"); try done; repeat constructor.
Defined.



